(** * Saude-Online admin web: patient table and home page

    A shallow embedding of [src/components/patients-table.tsx] and
    [src/pages/app/home.tsx].

    - JavaScript strings are sequences of UTF-16 code units ([jsstring]);
      [String.prototype.length] is the number of code units.
    - The value of the [age] input, read with [valueAsNumber], is either
      [NaN] or a finite number ([jsnumber]).
    - The form schema [newPatientForm] is embedded check by check, with the
      issue order of the schema library (all checks of a field run, fields
      are visited in declaration order) and the resolver's first-issue-per-
      field rule.
    - The component's handlers run in a small state-and-exception monad over
      a [world] that records the local view state, the remote calls that
      were dispatched, the cache keys that were invalidated and the toasts
      that were shown. *)

From Stdlib Require Import List Bool Arith NArith ZArith QArith Lia.
From Stdlib Require Import Ascii String.
Import ListNotations.

Close Scope Q_scope.
Open Scope nat_scope.
Open Scope list_scope.

(* ===================================================================== *)
(** ** JavaScript strings *)
(* ===================================================================== *)

Module JS.

(** One UTF-16 code unit. *)
Definition code_unit := N.

Definition jsstring := list code_unit.

(** A literal made of ASCII characters only. *)
Fixpoint lit (s : string) : jsstring :=
  match s with
  | EmptyString => []
  | String c s' => N_of_ascii c :: lit s'
  end.

Arguments lit s%_string.

(** [\d] : the ten ASCII digits, nothing else. *)
Definition is_digit (c : code_unit) : bool :=
  (48 <=? c)%N && (c <=? 57)%N.

(** [s.replace(/\D/g, '')] : [\D] is the complement of [\d], and every
    match is replaced by the empty string, so exactly the digits are kept,
    in their order. *)
Definition replace_non_digits (s : jsstring) : jsstring :=
  filter is_digit s.

(** [/^\d{n}$/.test(s)] : the whole string is exactly [n] digits. *)
Definition test_exact_digits (n : nat) (s : jsstring) : bool :=
  (List.length s =? n) && forallb is_digit s.

(** [s.startsWith(p)] *)
Fixpoint startsWith (p s : jsstring) : bool :=
  match p, s with
  | [], _ => true
  | _ :: _, [] => false
  | a :: p', b :: s' => (a =? b)%N && startsWith p' s'
  end.

(** ToBoolean on a string: only the empty string is falsy. *)
Definition truthy (s : jsstring) : bool :=
  match s with
  | [] => false
  | _ :: _ => true
  end.

(** ToBoolean on an optional string ([undefined] is falsy). *)
Definition truthy_opt (s : option jsstring) : bool :=
  match s with
  | None => false
  | Some s' => truthy s'
  end.

(** A number as the form receives it from a numeric input. *)
Inductive jsnumber : Type :=
| NaN : jsnumber
| Num : Q -> jsnumber.

(** [Number.isInteger] on a finite number. *)
Definition isInteger (q : Q) : bool :=
  (Z.rem (Qnum q) (Zpos (Qden q)) =? 0)%Z.

(** [a < b] on finite numbers. *)
Definition ltb (a b : Q) : bool := negb (Qle_bool b a).

End JS.

Import JS.

(* ===================================================================== *)
(** ** The form schema [newPatientForm] *)
(* ===================================================================== *)

Module Schema.

(** The messages of the schema.  Code units above 127 are written out:
    225 is a-acute, 237 i-acute, 250 u-acute. *)
Definition msg_name : jsstring := lit "Digite o nome completo.".
Definition msg_age_int : jsstring :=
  lit "Idade deve ser um n" ++ [250%N] ++ lit "mero inteiro.".
Definition msg_age_min : jsstring :=
  lit "Idade inv" ++ [225%N] ++ lit "lida.".
Definition msg_age_max : jsstring := lit "Idade muito alta.".
Definition msg_document : jsstring :=
  lit "Documento deve ser um CPF ou RG v" ++ [225%N] ++ lit "lido.".
Definition msg_phone : jsstring :=
  lit "Telefone deve ser um n" ++ [250%N] ++ lit "mero de celular v"
  ++ [225%N] ++ lit "lido.".

(** The schema library's own message when a number field holds [NaN]. *)
Definition msg_nan : jsstring := lit "Expected number, received nan".

(** [name: z.string().min(3, ...)] *)
Definition name_issues (name : jsstring) : list jsstring :=
  if List.length name <? 3 then [msg_name] else [].

(** [age: z.number().int(...).min(0, ...).max(120, ...)].  A [NaN] is not a
    number for the schema and stops the field there; on a number the three
    checks all run, in this order. *)
Definition age_issues (age : jsnumber) : list jsstring :=
  match age with
  | NaN => [msg_nan]
  | Num q =>
      (if isInteger q then [] else [msg_age_int])
      ++ (if ltb q 0%Q then [msg_age_min] else [])
      ++ (if ltb 120%Q q then [msg_age_max] else [])
  end.

(** The refinement of [document]. *)
Definition document_refinement (doc : jsstring) : bool :=
  let cleanedDoc := replace_non_digits doc in
  let cpfRegex := test_exact_digits 11 in
  let rgRegex := test_exact_digits 9 in
  cpfRegex cleanedDoc || rgRegex cleanedDoc.

Definition document_issues (doc : jsstring) : list jsstring :=
  if document_refinement doc then [] else [msg_document].

(** The refinement of [phone]; [None] is [undefined]. *)
Definition phone_refinement (phone : option jsstring) : bool :=
  if negb (truthy_opt phone) then true
  else
    match phone with
    | None => true
    | Some p =>
        let cleanedPhone := replace_non_digits p in
        List.length cleanedPhone =? 11
    end.

Definition phone_issues (phone : option jsstring) : list jsstring :=
  if phone_refinement phone then [] else [msg_phone].

(** The values of the form ([NewPatientForm]). *)
Record NewPatientForm : Type := mkForm {
  name : jsstring;
  age : jsnumber;
  document : jsstring;
  phone : option jsstring
}.

Inductive field : Type := FName | FAge | FDocument | FPhone.

Definition field_eqb (a b : field) : bool :=
  match a, b with
  | FName, FName | FAge, FAge | FDocument, FDocument | FPhone, FPhone => true
  | _, _ => false
  end.

Record issue : Type := mkIssue { path : field; message : jsstring }.

(** [newPatientForm.safeParse(data)] : the issues of all four fields, in
    the order of the object's keys. *)
Definition parse_issues (data : NewPatientForm) : list issue :=
  map (mkIssue FName) (name_issues (name data))
  ++ map (mkIssue FAge) (age_issues (age data))
  ++ map (mkIssue FDocument) (document_issues (document data))
  ++ map (mkIssue FPhone) (phone_issues (phone data)).

(** The resolver keeps, for each field, the message of its first issue. *)
Definition first_issue (f : field) (l : list issue) : option jsstring :=
  match find (fun i => field_eqb (path i) f) l with
  | Some i => Some (message i)
  | None => None
  end.

(** [formState.errors] *)
Record FieldErrors : Type := mkErrors {
  err_name : option jsstring;
  err_age : option jsstring;
  err_document : option jsstring;
  err_phone : option jsstring
}.

Definition no_errors : FieldErrors := mkErrors None None None None.

Definition resolver_errors (l : list issue) : FieldErrors :=
  mkErrors (first_issue FName l) (first_issue FAge l)
           (first_issue FDocument l) (first_issue FPhone l).

(** [zodResolver(newPatientForm)] : the parsed values when there is no
    issue, the field errors otherwise.  The schema has no transform, so the
    parsed values are the values that were entered. *)
Definition zodResolver (data : NewPatientForm)
  : NewPatientForm + FieldErrors :=
  match parse_issues data with
  | [] => inl data
  | l => inr (resolver_errors l)
  end.

End Schema.

Import Schema.

(* ===================================================================== *)
(** ** The remote store and the query cache, as the component sees them *)
(* ===================================================================== *)

Module Api.

(** Modelled from the spec: the type [PatientProps] of [api/get-user], which
    the table receives as rows (section 3 of the specification: an opaque id,
    a name, an age, a document string and an optional phone). *)
Record PatientProps : Type := mkPatient {
  id : jsstring;
  name : jsstring;
  age : jsnumber;
  document : jsstring;
  phone : option jsstring
}.

(** The body of [registerPatient]. *)
Record RegisterBody : Type := mkBody {
  body_name : jsstring;
  body_age : jsnumber;
  body_document : jsstring;
  body_phone : option jsstring
}.

(** A call that reaches the remote store. *)
Inductive call : Type :=
| RegisterPatient : RegisterBody -> call
| DeletePatient : jsstring -> call.

(** Modelled from the spec: the user record returned by [getUser], with its
    optional [crm] (the professional licence identifier). *)
Record User : Type := mkUser { crm : option jsstring }.

End Api.

Module PatientTable.

Inductive ToastVariant : Type := default | destructive.

Record Toast : Type := mkToast {
  variant : ToastVariant;
  title : jsstring;
  description : jsstring
}.

(** What the component owns or can observe: the form, its errors, the
    popover flag, the rows it was given, and three logs (remote calls,
    invalidated cache keys, toasts), oldest entry first. *)
Record world : Type := mkWorld {
  form : NewPatientForm;
  errors : FieldErrors;
  isPopoverOpen : bool;
  data : list Api.PatientProps;
  calls : list Api.call;
  invalidated : list (list jsstring);
  toasts : list Toast
}.

(** The form as [reset()] leaves it: every input empty. *)
Definition blank_form : NewPatientForm := mkForm [] NaN [] (Some []).

Definition set_form (f : NewPatientForm) (w : world) : world :=
  mkWorld f (errors w) (isPopoverOpen w) (data w) (calls w) (invalidated w)
          (toasts w).

Definition set_errors (e : FieldErrors) (w : world) : world :=
  mkWorld (form w) e (isPopoverOpen w) (data w) (calls w) (invalidated w)
          (toasts w).

Definition set_open (b : bool) (w : world) : world :=
  mkWorld (form w) (errors w) b (data w) (calls w) (invalidated w) (toasts w).

Definition log_call (c : Api.call) (w : world) : world :=
  mkWorld (form w) (errors w) (isPopoverOpen w) (data w) (calls w ++ [c])
          (invalidated w) (toasts w).

Definition log_invalidation (k : list jsstring) (w : world) : world :=
  mkWorld (form w) (errors w) (isPopoverOpen w) (data w) (calls w)
          (invalidated w ++ [k]) (toasts w).

Definition log_toast (t : Toast) (w : world) : world :=
  mkWorld (form w) (errors w) (isPopoverOpen w) (data w) (calls w)
          (invalidated w) (toasts w ++ [t]).

Section Component.

(** What a failed remote call throws. *)
Variable exn : Type.

(** The shared helper that turns an error into a readable message. *)
Variable axiosErrorHandler : exn -> jsstring.

(** The masks of the masking library. *)
Variable cpfMask : jsstring -> jsstring.
Variable rgMask : jsstring -> jsstring.
Variable telefoneMask : option jsstring -> jsstring.

(** The remote store: given the calls made so far and the new call, it
    either answers ([None]) or fails with an error. *)
Variable backend : list Api.call -> Api.call -> option exn.

(** *** A state monad with exceptions *)

Inductive result (A : Type) : Type :=
| Ok : A -> result A
| Throw : exn -> result A.

Arguments Ok {A} _.
Arguments Throw {A} _.

Definition M (A : Type) : Type := world -> result A * world.

Definition ret {A : Type} (a : A) : M A := fun w => (Ok a, w).

Definition bind {A B : Type} (m : M A) (k : A -> M B) : M B :=
  fun w =>
    match m w with
    | (Ok a, w') => k a w'
    | (Throw e, w') => (Throw e, w')
    end.

Definition try_catch {A : Type} (m : M A) (h : exn -> M A) : M A :=
  fun w =>
    match m w with
    | (Ok a, w') => (Ok a, w')
    | (Throw e, w') => h e w'
    end.

Definition get : M world := fun w => (Ok w, w).

Definition modify (f : world -> world) : M unit := fun w => (Ok tt, f w).

Notation "x <- m ;; k" := (bind m (fun x => k))
  (at level 61, m at next level, right associativity).
Notation "m ;; k" := (bind m (fun _ => k))
  (at level 61, right associativity).

(** *** Collaborators *)

(** A call to the remote store: it is logged, then answered or failed. *)
Definition request (c : Api.call) : M unit :=
  fun w =>
    match backend (calls w) c with
    | None => (Ok tt, log_call c w)
    | Some e => (Throw e, log_call c w)
    end.

Definition registerPatient (body : Api.RegisterBody) : M unit :=
  request (Api.RegisterPatient body).

Definition deletePatient (id : jsstring) : M unit :=
  request (Api.DeletePatient id).

(** [queryClient.invalidateQueries({ queryKey })] *)
Definition invalidateQueries (queryKey : list jsstring) : M unit :=
  modify (log_invalidation queryKey).

Definition toast (t : Toast) : M unit := modify (log_toast t).

Definition reset : M unit :=
  modify (fun w => set_errors no_errors (set_form blank_form w)).

Definition setIsPopoverOpen (b : bool) : M unit := modify (set_open b).

(** Modelled from the spec: the mutation defaults of the query client
    declared in [lib/react-query].  [mutateAsync] runs the mutation function
    once, with no automatic retry; [onSuccess] runs only when it answered,
    and a failure is thrown to the caller. *)
Definition mutateAsync {V : Type} (mutationFn : V -> M unit)
    (onSuccess : M unit) (variables : V) : M unit :=
  mutationFn variables ;; onSuccess.

(** *** The component's handlers *)

Definition registerPatientFn : Api.RegisterBody -> M unit :=
  mutateAsync registerPatient (invalidateQueries [lit "patients"]).

Definition deletePatientFn : jsstring -> M unit :=
  mutateAsync deletePatient (invalidateQueries [lit "patients"]).

Definition handleCreateNewPatient (data : NewPatientForm) : M unit :=
  try_catch
    (registerPatientFn
       (Api.mkBody (name data) (age data) (document data) (phone data)) ;;
     reset ;;
     setIsPopoverOpen false ;;
     toast (mkToast default (lit "Pacientes") (lit "Paciente cadastrado!")))
    (fun error =>
       let errorMessage := axiosErrorHandler error in
       toast (mkToast destructive (lit "Pacientes") errorMessage)).

Definition handleDeletePatient (id : jsstring) : M unit :=
  try_catch
    (deletePatientFn id ;;
     toast (mkToast default (lit "Pacientes")
                    (lit "Paciente exclu" ++ [237%N] ++ lit "do")))
    (fun error =>
       let errorMessage := axiosErrorHandler error in
       toast (mkToast destructive (lit "Pacientes") errorMessage)).

(** [handleSubmit(onValid)] : the resolver runs on the current values; the
    handler is called only when it reports no error. *)
Definition handleSubmit (onValid : NewPatientForm -> M unit) : M unit :=
  w <- get ;;
  match zodResolver (form w) with
  | inl values => modify (set_errors no_errors) ;; onValid values
  | inr errs => modify (set_errors errs)
  end.

(** *** The cells of a row *)

Definition nameCell (row : Api.PatientProps) : jsstring := Api.name row.

Definition phoneCell (row : Api.PatientProps) : jsstring :=
  telefoneMask (Api.phone row).

(** The label of the document cell.  The stored value is a string, on which
    [String(...)] is the identity. *)
Definition documentCell (row : Api.PatientProps) : jsstring :=
  let document := Api.document row in
  if List.length document =? 9
  then lit "RG: " ++ rgMask document
  else lit "CPF: " ++ cpfMask document.

(** *** What the user can do *)

Inductive event : Type :=
| ClickCadastrarNovo : event
| OnOpenChange : bool -> event
| InputName : jsstring -> event
| InputAge : jsnumber -> event
| InputDocument : jsstring -> event
| InputPhone : jsstring -> event
| SubmitForm : event
| SelectExcluir : Api.PatientProps -> event
| ClickCancelar : Api.PatientProps -> event
| ClickConfirmar : Api.PatientProps -> event.

Definition on_event (e : event) : M unit :=
  match e with
  | ClickCadastrarNovo => setIsPopoverOpen true
  | OnOpenChange b => setIsPopoverOpen b
  | InputName s =>
      modify (fun w =>
        set_form (mkForm s (age (form w)) (document (form w))
                         (phone (form w))) w)
  | InputAge n =>
      modify (fun w =>
        set_form (mkForm (name (form w)) n (document (form w))
                         (phone (form w))) w)
  | InputDocument s =>
      modify (fun w =>
        set_form (mkForm (name (form w)) (age (form w)) s
                         (phone (form w))) w)
  | InputPhone s =>
      modify (fun w =>
        set_form (mkForm (name (form w)) (age (form w)) (document (form w))
                         (Some s)) w)
  | SubmitForm => handleSubmit handleCreateNewPatient
  | SelectExcluir _ => ret tt
  | ClickCancelar _ => ret tt
  | ClickConfirmar patient => handleDeletePatient (Api.id patient)
  end.

(** The world after an event has been handled to completion. *)
Definition step (e : event) (w : world) : world := snd (on_event e w).

End Component.

Arguments Ok {exn A} _.
Arguments Throw {exn A} _.

End PatientTable.

(* ===================================================================== *)
(** ** The home page *)
(* ===================================================================== *)

Module HomePage.

(** A tile, by its title and its target (the icon and the description are
    presentation only). *)
Record FeatureCard : Type := mkCard { title : jsstring; to : jsstring }.

Definition agenda : FeatureCard := mkCard (lit "Agenda") (lit "schedule").
Definition financeiro : FeatureCard :=
  mkCard (lit "Financeiro") (lit "financial").
Definition pacientes : FeatureCard := mkCard (lit "Pacientes") (lit "patients").
Definition anamnese : FeatureCard := mkCard (lit "Anamnese") (lit "anamnesis").
Definition receituario : FeatureCard :=
  mkCard (lit "Receitu" ++ [225%N] ++ lit "rio") (lit "prescription").

(** [user?.crm] : [undefined] while there is no user record. *)
Definition user_crm (user : option Api.User) : option jsstring :=
  match user with
  | None => None
  | Some u => Api.crm u
  end.

(** The tiles of [Home], in the order of the page.  [user] is the data of
    the user query: [None] until a record has been fetched. *)
Definition Home (user : option Api.User) : list FeatureCard :=
  [agenda; financeiro; pacientes]
  ++ (if truthy_opt (user_crm user) then [anamnese] else [])
  ++ [receituario].

End HomePage.

(* ===================================================================== *)
(** ** Sample inputs *)
(* ===================================================================== *)

Module Samples.

Import PatientTable.

(** The submission of the specification's example. *)
Definition maria : NewPatientForm :=
  mkForm (lit "Maria Silva") (Num 34%Q) (lit "12345678901")
         (Some (lit "11987654321")).

(** A submission typed with separators. *)
Definition punctuated : NewPatientForm :=
  mkForm (lit "Ana Souza") (Num 51%Q) (lit "123.456.789")
         (Some (lit "(11)98765-4321")).

Definition short_name : NewPatientForm :=
  mkForm (lit "Jo") (Num 34%Q) (lit "12345678901") (Some (lit "11987654321")).

Definition too_old : NewPatientForm :=
  mkForm (lit "Maria Silva") (Num 121%Q) (lit "12345678901") (Some []).

Definition negative_age : NewPatientForm :=
  mkForm (lit "Maria Silva") (Num (-1)%Q) (lit "12345678901") None.

(** A world in which the popover is open on the given form, with no rows and
    nothing logged yet. *)
Definition editing (f : NewPatientForm) : world :=
  mkWorld f no_errors true [] [] [] [].

(** A stored patient whose document has nine digits and no separator. *)
Definition patient_rg : Api.PatientProps :=
  Api.mkPatient (lit "p-1") (lit "Ana Souza") (Num 51%Q) (lit "123456789") None.

(** A stored patient whose document has eleven digits. *)
Definition patient_cpf : Api.PatientProps :=
  Api.mkPatient (lit "p-2") (lit "Maria Silva") (Num 34%Q) (lit "12345678901")
                (Some (lit "11987654321")).

(** A stored patient whose document has nine digits and one separator, as
    the form accepts it and sends it. *)
Definition patient_rg_punctuated : Api.PatientProps :=
  Api.mkPatient (lit "p-3") (lit "Rui Lima") (Num 40%Q) (lit "12345678-9")
                None.

(** A remote store that answers every call, and one that fails every call
    with the same error. *)
Definition backend_up : list Api.call -> Api.call -> option nat :=
  fun _ _ => None.

Definition backend_down : list Api.call -> Api.call -> option nat :=
  fun _ _ => Some 500.

Definition describe (e : nat) : jsstring :=
  if e =? 500 then lit "Erro interno do servidor" else lit "Erro".

(** Stand-ins for the masks: the digits of the value, unformatted. *)
Definition plain_mask (s : jsstring) : jsstring := replace_non_digits s.

Definition licensed : Api.User := Api.mkUser (Some (lit "123456/SP")).
Definition unlicensed : Api.User := Api.mkUser None.
Definition blank_licence : Api.User := Api.mkUser (Some []).

End Samples.

(* ===================================================================== *)
(** ** Text inputs, navigation and runs of events *)
(* ===================================================================== *)

Module Inputs.

(** The [maxLength] of the three text inputs of the form. *)
Definition maxLength_name : nat := 50.
Definition maxLength_document : nat := 11.
Definition maxLength_phone : nat := 11.

(** A value that can be typed into an input with the given [maxLength]:
    the browser counts UTF-16 code units. *)
Definition fits (maxLength : nat) (s : jsstring) : bool :=
  List.length s <=? maxLength.

End Inputs.

Module Navigation.


End Navigation.

Module Session.

Import PatientTable.

Section Run.

Variable exn : Type.
Variable axiosErrorHandler : exn -> jsstring.
Variable backend : list Api.call -> Api.call -> option exn.

(** The events of a session, each handled to completion before the next. *)
Fixpoint run (es : list event) (w : world) : world :=
  match es with
  | [] => w
  | e :: es' => run es' (step exn axiosErrorHandler backend e w)
  end.

End Run.

(** The form values a register body was built from. *)
Definition form_of_body (b : Api.RegisterBody) : NewPatientForm :=
  mkForm (Api.body_name b) (Api.body_age b) (Api.body_document b)
         (Api.body_phone b).

(** A call whose body, when it has one, has no issue under the schema. *)
Definition passes_schema (c : Api.call) : bool :=
  match c with
  | Api.RegisterPatient b =>
      match parse_issues (form_of_body b) with
      | [] => true
      | _ :: _ => false
      end
  | Api.DeletePatient _ => true
  end.

Definition is_default (t : Toast) : bool :=
  match variant t with
  | default => true
  | destructive => false
  end.

Definition count_default (l : list Toast) : nat :=
  List.length (filter is_default l).

End Session.

Module Scenarios.

Import PatientTable.



(** A remote store that fails the first call it sees and answers the
    later ones. *)
Definition backend_flaky : list Api.call -> Api.call -> option nat :=
  fun sent _ =>
    match sent with
    | [] => Some 500
    | _ :: _ => None
    end.

(** A session: a blocked submission, a deletion, then the popover closed. *)
Definition session : list event :=
  [SubmitForm; ClickConfirmar Samples.patient_cpf; OnOpenChange false].

End Scenarios.

(* ===================================================================== *)
(** ** Strings and digits *)
(* ===================================================================== *)

Lemma forallb_filter_same {A : Type} (p : A -> bool) (l : list A) :
  forallb p (filter p l) = true.
Proof.
  induction l as [| a l IH]; simpl; trivial.
  destruct (p a) eqn:Ha; simpl; trivial.
  now rewrite Ha.
Qed.

Lemma filter_fixed_iff {A : Type} (p : A -> bool) (l : list A) :
  filter p l = l <-> forallb p l = true.
Proof.
  split.
  - intros H. rewrite <- H. apply forallb_filter_same.
  - induction l as [| a l IH]; simpl; trivial.
    intros H. apply andb_true_iff in H as [Ha Hl].
    rewrite Ha. f_equal. now apply IH.
Qed.

Lemma filter_length_le {A : Type} (p : A -> bool) (l : list A) :
  List.length (filter p l) <= List.length l.
Proof.
  induction l as [| a l IH]; simpl; trivial.
  destruct (p a); simpl; lia.
Qed.

(** After the non-digits are stripped, the anchored digit pattern only
    measures the length. *)
Lemma test_exact_digits_cleaned (n : nat) (s : jsstring) :
  test_exact_digits n (replace_non_digits s)
  = (List.length (replace_non_digits s) =? n).
Proof.
  unfold test_exact_digits, replace_non_digits.
  rewrite forallb_filter_same. apply andb_true_r.
Qed.

(* ===================================================================== *)
(** ** The field rules *)
(* ===================================================================== *)

Lemma document_refinement_iff (doc : jsstring) :
  document_refinement doc = true
  <-> List.length (replace_non_digits doc) = 11
      \/ List.length (replace_non_digits doc) = 9.
Proof.
  unfold document_refinement.
  rewrite !test_exact_digits_cleaned, orb_true_iff, !Nat.eqb_eq.
  reflexivity.
Qed.

(** C1.  A document is classified as valid exactly when the string left
    after removing every non-digit character has length 11 or length 9.
    The classification is a total function of the string alone; the issue
    list it feeds is empty exactly on the valid documents; and the empty
    string is rejected. *)
Theorem document_validator_digit_count :
  (forall doc : jsstring,
      document_refinement doc = true
      <-> List.length (replace_non_digits doc) = 11
          \/ List.length (replace_non_digits doc) = 9)
  /\ (forall doc : jsstring,
      document_issues doc = [] <-> document_refinement doc = true)
  /\ (forall doc : jsstring,
      document_refinement doc = false
      <-> List.length (replace_non_digits doc) <> 11
          /\ List.length (replace_non_digits doc) <> 9)
  /\ document_refinement [] = false.
Proof.
  split; [exact document_refinement_iff |].
  split.
  - intros doc. unfold document_issues.
    destruct (document_refinement doc); split; intros H;
      try reflexivity; discriminate.
  - split; [| reflexivity].
    intros doc. rewrite <- not_true_iff_false, document_refinement_iff.
    lia.
Qed.

Lemma phone_refinement_nonempty (c : code_unit) (p : jsstring) :
  phone_refinement (Some (c :: p))
  = (List.length (replace_non_digits (c :: p)) =? 11).
Proof. reflexivity. Qed.

(** A string is falsy exactly when it is empty, so an empty phone takes the
    same early return as an absent one. *)
Lemma phone_refinement_falsy (phone : option jsstring) :
  phone = None \/ phone = Some [] -> phone_refinement phone = true.
Proof. intros [-> | ->]; reflexivity. Qed.

Lemma phone_issues_falsy (phone : option jsstring) :
  phone = None \/ phone = Some [] -> phone_issues phone = [].
Proof.
  intros H. unfold phone_issues. now rewrite phone_refinement_falsy.
Qed.

(** *** The age checks on whole numbers *)

Lemma isInteger_whole (q : Q) (z : Z) :
  (q == inject_Z z)%Q -> isInteger q = true.
Proof.
  unfold Qeq, isInteger, inject_Z. simpl. intros H.
  rewrite Z.mul_1_r in H. rewrite H.
  apply Z.eqb_eq, Z.rem_mul. discriminate.
Qed.

Lemma ltb_whole_l (q : Q) (z k : Z) :
  (q == inject_Z z)%Q -> ltb q (inject_Z k) = (z <? k)%Z.
Proof.
  intros H. unfold ltb. rewrite H.
  destruct (Qle_bool (inject_Z k) (inject_Z z)) eqn:E; simpl; symmetry.
  - apply Qle_bool_iff in E. rewrite <- Zle_Qle in E.
    apply Z.ltb_ge. exact E.
  - apply Z.ltb_lt. apply Z.lt_nge. intros Hle.
    rewrite Zle_Qle in Hle. apply Qle_bool_iff in Hle. congruence.
Qed.

Lemma ltb_whole_r (q : Q) (z k : Z) :
  (q == inject_Z z)%Q -> ltb (inject_Z k) q = (k <? z)%Z.
Proof.
  intros H. unfold ltb. rewrite H.
  destruct (Qle_bool (inject_Z z) (inject_Z k)) eqn:E; simpl; symmetry.
  - apply Qle_bool_iff in E. rewrite <- Zle_Qle in E.
    apply Z.ltb_ge. exact E.
  - apply Z.ltb_lt. apply Z.lt_nge. intros Hle.
    rewrite Zle_Qle in Hle. apply Qle_bool_iff in Hle. congruence.
Qed.

(** On a whole number only the two bounds can raise an issue. *)
Lemma age_issues_whole (q : Q) (z : Z) :
  (q == inject_Z z)%Q ->
  age_issues (Num q)
  = (if (z <? 0)%Z then [msg_age_min] else [])
    ++ (if (120 <? z)%Z then [msg_age_max] else []).
Proof.
  intros H. unfold age_issues.
  rewrite (isInteger_whole q z H).
  change 0%Q with (inject_Z 0). change 120%Q with (inject_Z 120).
  rewrite (ltb_whole_l q z 0 H), (ltb_whole_r q z 120 H).
  reflexivity.
Qed.

Lemma age_issues_above (q : Q) (z : Z) :
  (q == inject_Z z)%Q -> (120 < z)%Z -> age_issues (Num q) = [msg_age_max].
Proof.
  intros H Hz. rewrite (age_issues_whole q z H).
  destruct (Z.ltb_spec z 0); [lia |].
  destruct (Z.ltb_spec 120 z); [reflexivity | lia].
Qed.

Lemma age_issues_below (q : Q) (z : Z) :
  (q == inject_Z z)%Q -> (z < 0)%Z -> age_issues (Num q) = [msg_age_min].
Proof.
  intros H Hz. rewrite (age_issues_whole q z H).
  destruct (Z.ltb_spec z 0); [| lia].
  destruct (Z.ltb_spec 120 z); [lia | reflexivity].
Qed.

Lemma age_issues_in_range (q : Q) (z : Z) :
  (q == inject_Z z)%Q -> (0 <= z <= 120)%Z -> age_issues (Num q) = [].
Proof.
  intros H Hz. rewrite (age_issues_whole q z H).
  destruct (Z.ltb_spec z 0); [lia |].
  destruct (Z.ltb_spec 120 z); [lia | reflexivity].
Qed.

Lemma name_issues_short (name : jsstring) :
  List.length name < 3 -> name_issues name = [msg_name].
Proof.
  intros H. unfold name_issues.
  destruct (Nat.ltb_spec (List.length name) 3); [reflexivity | lia].
Qed.

(** The four field rules, as the schema decides them. *)
Lemma name_issues_nil_iff (name : jsstring) :
  name_issues name = [] <-> 3 <= List.length name.
Proof.
  unfold name_issues.
  destruct (Nat.ltb_spec (List.length name) 3); split; intros H';
    trivial; try discriminate; lia.
Qed.

Lemma ltb_false_iff (a b : Q) : ltb a b = false <-> (b <= a)%Q.
Proof.
  unfold ltb. rewrite negb_false_iff. apply Qle_bool_iff.
Qed.

Lemma age_issues_nil_iff (age : jsnumber) :
  age_issues age = []
  <-> exists q : Q,
        age = Num q /\ isInteger q = true /\ (0 <= q)%Q /\ (q <= 120)%Q.
Proof.
  destruct age as [| q]; simpl.
  - split; [discriminate |]. intros (q & Hq & _). discriminate Hq.
  - split.
    + intros H. exists q.
      destruct (isInteger q); [| discriminate H].
      destruct (ltb q 0) eqn:Hlo; [discriminate H |].
      destruct (ltb 120 q) eqn:Hhi; [discriminate H |].
      apply ltb_false_iff in Hlo, Hhi. auto.
    + intros (q' & Hq & Hint & Hlo & Hhi). injection Hq as <-.
      apply ltb_false_iff in Hlo, Hhi. now rewrite Hint, Hlo, Hhi.
Qed.

Lemma phone_issues_nil_iff (phone : option jsstring) :
  phone_issues phone = [] <-> phone_refinement phone = true.
Proof.
  unfold phone_issues.
  destruct (phone_refinement phone); split; intros H;
    try reflexivity; discriminate.
Qed.

(* ===================================================================== *)
(** ** The resolver *)
(* ===================================================================== *)

Lemma first_issue_other (g f : field) (l : list jsstring) (r : list issue) :
  field_eqb g f = false ->
  first_issue f (map (mkIssue g) l ++ r) = first_issue f r.
Proof.
  intros Hgf. unfold first_issue.
  induction l as [| m l IH]; simpl; trivial.
  now rewrite Hgf.
Qed.

Lemma first_issue_same (f : field) (l : list jsstring) (r : list issue) :
  first_issue f (map (mkIssue f) l ++ r)
  = match l with
    | [] => first_issue f r
    | m :: _ => Some m
    end.
Proof.
  destruct l as [| m l]; simpl; trivial.
  unfold first_issue. simpl. now destruct f.
Qed.

Lemma first_issue_last (f : field) (l : list jsstring) :
  first_issue f (map (mkIssue f) l) = hd_error l.
Proof.
  rewrite <- (app_nil_r (map (mkIssue f) l)), first_issue_same.
  now destruct l.
Qed.

Lemma first_issue_absent (g f : field) (l : list jsstring) :
  field_eqb g f = false -> first_issue f (map (mkIssue g) l) = None.
Proof.
  intros Hgf.
  rewrite <- (app_nil_r (map (mkIssue g) l)).
  now rewrite first_issue_other.
Qed.

(** Each field shows the first issue of its own checks, whatever the other
    fields do. *)
Lemma resolver_errors_parse (d : NewPatientForm) :
  resolver_errors (parse_issues d)
  = mkErrors (hd_error (name_issues (name d)))
             (hd_error (age_issues (age d)))
             (hd_error (document_issues (document d)))
             (hd_error (phone_issues (phone d))).
Proof.
  unfold resolver_errors, parse_issues. f_equal.
  - rewrite first_issue_same.
    destruct (name_issues (name d)); trivial.
    rewrite !first_issue_other by reflexivity.
    now apply first_issue_absent.
  - rewrite first_issue_other by reflexivity.
    rewrite first_issue_same.
    destruct (age_issues (age d)); trivial.
    rewrite first_issue_other by reflexivity.
    now apply first_issue_absent.
  - rewrite !first_issue_other by reflexivity.
    rewrite first_issue_same.
    destruct (document_issues (document d)); trivial.
    now apply first_issue_absent.
  - rewrite !first_issue_other by reflexivity.
    apply first_issue_last.
Qed.

Lemma parse_issues_nil_iff (d : NewPatientForm) :
  parse_issues d = []
  <-> name_issues (name d) = [] /\ age_issues (age d) = []
      /\ document_issues (document d) = [] /\ phone_issues (phone d) = [].
Proof.
  unfold parse_issues. split.
  - intros H.
    apply app_eq_nil in H as [H1 H]. apply app_eq_nil in H as [H2 H].
    apply app_eq_nil in H as [H3 H4].
    apply map_eq_nil in H1, H2, H3, H4. auto.
  - intros (-> & -> & -> & ->). reflexivity.
Qed.

Lemma zodResolver_valid (d : NewPatientForm) :
  parse_issues d = [] -> zodResolver d = inl d.
Proof. intros H. unfold zodResolver. now rewrite H. Qed.

Lemma zodResolver_invalid (d : NewPatientForm) :
  parse_issues d <> [] ->
  zodResolver d = inr (resolver_errors (parse_issues d)).
Proof.
  intros H. unfold zodResolver.
  destruct (parse_issues d); [contradiction | reflexivity].
Qed.

(* ===================================================================== *)
(** ** The handlers of the patient table *)
(* ===================================================================== *)

Import PatientTable.

Section Handlers.

Variable exn : Type.
Variable axiosErrorHandler : exn -> jsstring.
Variable backend : list Api.call -> Api.call -> option exn.

Local Abbreviation step := (PatientTable.step exn axiosErrorHandler backend).

(** The body that [handleCreateNewPatient] builds from the form values. *)
Local Abbreviation body_of f :=
  (Api.mkBody (name f) (age f) (document f) (phone f)).

Local Abbreviation patients_key := [lit "patients"].

Local Abbreviation toast_registered :=
  (mkToast default (lit "Pacientes") (lit "Paciente cadastrado!")).

Local Abbreviation toast_deleted :=
  (mkToast default (lit "Pacientes")
           (lit "Paciente exclu" ++ [237%N] ++ lit "do")).

Local Abbreviation toast_failed e :=
  (mkToast destructive (lit "Pacientes") (axiosErrorHandler e)).

Lemma submit_invalid (w : world) :
  parse_issues (form w) <> [] ->
  step SubmitForm w = set_errors (resolver_errors (parse_issues (form w))) w.
Proof.
  intros H. unfold PatientTable.step, on_event, handleSubmit, bind, get.
  now rewrite (zodResolver_invalid _ H).
Qed.

Lemma submit_answered (w : world) :
  parse_issues (form w) = [] ->
  backend (calls w) (Api.RegisterPatient (body_of (form w))) = None ->
  step SubmitForm w
  = log_toast toast_registered
      (set_open false
         (set_errors no_errors
            (set_form blank_form
               (log_invalidation patients_key
                  (log_call (Api.RegisterPatient (body_of (form w)))
                     (set_errors no_errors w)))))).
Proof.
  intros Hv Hb.
  unfold PatientTable.step, on_event, handleSubmit, bind, get.
  rewrite (zodResolver_valid _ Hv).
  unfold handleCreateNewPatient, try_catch, registerPatientFn, mutateAsync,
    registerPatient, request, bind.
  simpl. now rewrite Hb.
Qed.

Lemma submit_failed (w : world) (e : exn) :
  parse_issues (form w) = [] ->
  backend (calls w) (Api.RegisterPatient (body_of (form w))) = Some e ->
  step SubmitForm w
  = log_toast (toast_failed e)
      (log_call (Api.RegisterPatient (body_of (form w)))
         (set_errors no_errors w)).
Proof.
  intros Hv Hb.
  unfold PatientTable.step, on_event, handleSubmit, bind, get.
  rewrite (zodResolver_valid _ Hv).
  unfold handleCreateNewPatient, try_catch, registerPatientFn, mutateAsync,
    registerPatient, request, bind.
  simpl. now rewrite Hb.
Qed.

Lemma confirm_answered (p : Api.PatientProps) (w : world) :
  backend (calls w) (Api.DeletePatient (Api.id p)) = None ->
  step (ClickConfirmar p) w
  = log_toast toast_deleted
      (log_invalidation patients_key
         (log_call (Api.DeletePatient (Api.id p)) w)).
Proof.
  intros Hb.
  unfold PatientTable.step, on_event, handleDeletePatient, try_catch,
    deletePatientFn, mutateAsync, deletePatient, request, bind.
  now rewrite Hb.
Qed.

Lemma confirm_failed (p : Api.PatientProps) (w : world) (e : exn) :
  backend (calls w) (Api.DeletePatient (Api.id p)) = Some e ->
  step (ClickConfirmar p) w
  = log_toast (toast_failed e) (log_call (Api.DeletePatient (Api.id p)) w).
Proof.
  intros Hb.
  unfold PatientTable.step, on_event, handleDeletePatient, try_catch,
    deletePatientFn, mutateAsync, deletePatient, request, bind.
  now rewrite Hb.
Qed.

(** Whatever the store answers, a valid submission reaches it once. *)
Lemma submit_valid_calls (w : world) :
  parse_issues (form w) = [] ->
  calls (step SubmitForm w)
  = calls w ++ [Api.RegisterPatient (body_of (form w))].
Proof.
  intros Hv.
  destruct (backend (calls w) (Api.RegisterPatient (body_of (form w))))
    as [e |] eqn:Hb.
  - now rewrite (submit_failed w e Hv Hb).
  - now rewrite (submit_answered w Hv Hb).
Qed.

Lemma confirm_calls (p : Api.PatientProps) (w : world) :
  calls (step (ClickConfirmar p) w)
  = calls w ++ [Api.DeletePatient (Api.id p)].
Proof.
  destruct (backend (calls w) (Api.DeletePatient (Api.id p)))
    as [e |] eqn:Hb.
  - now rewrite (confirm_failed p w e Hb).
  - now rewrite (confirm_answered p w Hb).
Qed.

(** C2.  When the four field rules pass, submitting the form sends the
    remote store exactly one call, a registration carrying the name, age,
    document and phone that were entered; and when the store answers, the
    form is cleared, the popover is closed, the key "patients" is
    invalidated once, and the rows on display are those of before. *)
Theorem submit_valid_registers_once (w : world) :
  name_issues (name (form w)) = [] ->
  age_issues (age (form w)) = [] ->
  document_issues (document (form w)) = [] ->
  phone_issues (phone (form w)) = [] ->
  calls (step SubmitForm w)
  = calls w
    ++ [Api.RegisterPatient
          (Api.mkBody (name (form w)) (age (form w)) (document (form w))
                      (phone (form w)))]
  /\ (backend (calls w)
        (Api.RegisterPatient
           (Api.mkBody (name (form w)) (age (form w)) (document (form w))
                       (phone (form w)))) = None ->
      form (step SubmitForm w) = blank_form
      /\ isPopoverOpen (step SubmitForm w) = false
      /\ invalidated (step SubmitForm w)
         = invalidated w ++ [[lit "patients"]]
      /\ toasts (step SubmitForm w)
         = toasts w
           ++ [mkToast default (lit "Pacientes")
                       (lit "Paciente cadastrado!")]
      /\ data (step SubmitForm w) = data w).
Proof.
  intros Hn Ha Hd Hp.
  assert (Hv : parse_issues (form w) = [])
    by (apply parse_issues_nil_iff; auto).
  split.
  - now apply submit_valid_calls.
  - intros Hb. rewrite (submit_answered w Hv Hb). simpl. auto.
Qed.

(** C3.  Confirming the dialog of a row sends the remote store exactly one
    call, the deletion of that row's id; when the store answers, the key
    "patients" is invalidated once; cancelling the dialog changes nothing,
    so no call is sent. *)
Theorem confirm_deletes_once_cancel_none
    (p : Api.PatientProps) (w : world) :
  calls (step (ClickConfirmar p) w)
  = calls w ++ [Api.DeletePatient (Api.id p)]
  /\ (backend (calls w) (Api.DeletePatient (Api.id p)) = None ->
      invalidated (step (ClickConfirmar p) w)
      = invalidated w ++ [[lit "patients"]])
  /\ step (ClickCancelar p) w = w
  /\ calls (step (ClickCancelar p) w) = calls w.
Proof.
  split; [apply confirm_calls |].
  split.
  - intros Hb. now rewrite (confirm_answered p w Hb).
  - split; reflexivity.
Qed.

(** C4.  A submission with a failing field rule goes no further than the
    client: no call is sent, nothing is invalidated, no toast is shown, and
    each field shows the first message of its own checks.  A name of fewer
    than 3 characters shows "Digite o nome completo.", the age 121 shows
    "Idade muito alta." and the age -1 shows "Idade invalida." (with
    a-acute). *)
Theorem invalid_submission_blocked (w : world) :
  (parse_issues (form w) <> [] ->
   calls (step SubmitForm w) = calls w
   /\ invalidated (step SubmitForm w) = invalidated w
   /\ toasts (step SubmitForm w) = toasts w
   /\ form (step SubmitForm w) = form w
   /\ errors (step SubmitForm w)
      = mkErrors (hd_error (name_issues (name (form w))))
                 (hd_error (age_issues (age (form w))))
                 (hd_error (document_issues (document (form w))))
                 (hd_error (phone_issues (phone (form w)))))
  /\ (List.length (name (form w)) < 3 ->
      calls (step SubmitForm w) = calls w
      /\ err_name (errors (step SubmitForm w))
         = Some (lit "Digite o nome completo."))
  /\ (forall q : Q,
      age (form w) = Num q -> (q == 121)%Q ->
      calls (step SubmitForm w) = calls w
      /\ err_age (errors (step SubmitForm w))
         = Some (lit "Idade muito alta."))
  /\ (forall q : Q,
      age (form w) = Num q -> (q == -1)%Q ->
      calls (step SubmitForm w) = calls w
      /\ err_age (errors (step SubmitForm w))
         = Some (lit "Idade inv" ++ [225%N] ++ lit "lida.")).
Proof.
  assert (Hblock : parse_issues (form w) <> [] ->
                   step SubmitForm w
                   = set_errors
                       (mkErrors
                          (hd_error (name_issues (name (form w))))
                          (hd_error (age_issues (age (form w))))
                          (hd_error (document_issues (document (form w))))
                          (hd_error (phone_issues (phone (form w))))) w).
  { intros H. rewrite (submit_invalid w H). f_equal.
    apply resolver_errors_parse. }
  split; [| split; [| split]].
  - intros H. rewrite (Hblock H). simpl. auto.
  - intros Hlen.
    assert (Hn : name_issues (name (form w)) = [msg_name])
      by now apply name_issues_short.
    rewrite Hblock.
    + simpl. now rewrite Hn.
    + rewrite parse_issues_nil_iff. intros (Hn' & _). congruence.
  - intros q Hq Heq.
    assert (Ha : age_issues (age (form w)) = [msg_age_max]).
    { rewrite Hq. apply (age_issues_above q 121); [exact Heq | lia]. }
    rewrite Hblock.
    + simpl. now rewrite Ha.
    + rewrite parse_issues_nil_iff. intros (_ & Ha' & _). congruence.
  - intros q Hq Heq.
    assert (Ha : age_issues (age (form w)) = [msg_age_min]).
    { rewrite Hq. apply (age_issues_below q (-1)); [exact Heq | lia]. }
    rewrite Hblock.
    + simpl. now rewrite Ha.
    + rewrite parse_issues_nil_iff. intros (_ & Ha' & _). congruence.
Qed.

(** C6.  When the store fails a registration or a deletion, the message
    that the error helper derives from the error is shown in one
    destructive toast; the store was called once, with no second attempt;
    and the form values, the popover flag, the rows and the invalidation
    log are those of before. *)
Theorem remote_failure_keeps_state
    (w : world) (p : Api.PatientProps) (e : exn) :
  (parse_issues (form w) = [] ->
   backend (calls w)
     (Api.RegisterPatient
        (Api.mkBody (name (form w)) (age (form w)) (document (form w))
                    (phone (form w)))) = Some e ->
   toasts (step SubmitForm w)
   = toasts w ++ [mkToast destructive (lit "Pacientes") (axiosErrorHandler e)]
   /\ calls (step SubmitForm w)
      = calls w
        ++ [Api.RegisterPatient
              (Api.mkBody (name (form w)) (age (form w)) (document (form w))
                          (phone (form w)))]
   /\ form (step SubmitForm w) = form w
   /\ isPopoverOpen (step SubmitForm w) = isPopoverOpen w
   /\ data (step SubmitForm w) = data w
   /\ invalidated (step SubmitForm w) = invalidated w)
  /\ (backend (calls w) (Api.DeletePatient (Api.id p)) = Some e ->
      toasts (step (ClickConfirmar p) w)
      = toasts w
        ++ [mkToast destructive (lit "Pacientes") (axiosErrorHandler e)]
      /\ calls (step (ClickConfirmar p) w)
         = calls w ++ [Api.DeletePatient (Api.id p)]
      /\ form (step (ClickConfirmar p) w) = form w
      /\ isPopoverOpen (step (ClickConfirmar p) w) = isPopoverOpen w
      /\ data (step (ClickConfirmar p) w) = data w
      /\ invalidated (step (ClickConfirmar p) w) = invalidated w).
Proof.
  split.
  - intros Hv Hb. rewrite (submit_failed w e Hv Hb). simpl.
    repeat split; reflexivity.
  - intros Hb. rewrite (confirm_failed p w e Hb). simpl.
    repeat split; reflexivity.
Qed.

(** C8.  The phone rule treats the empty string as it treats an absent
    value: the refinement returns true on both, the phone field then shows
    no error after a submission, and the submission is registered as soon
    as the other three rules pass.  A non-empty phone passes exactly when
    its digits number 11. *)
Theorem phone_empty_as_absent :
  phone_refinement None = true
  /\ phone_refinement (Some []) = true
  /\ (forall w : world,
      phone (form w) = None \/ phone (form w) = Some [] ->
      err_phone (errors (step SubmitForm w)) = None
      /\ (name_issues (name (form w)) = [] ->
          age_issues (age (form w)) = [] ->
          document_issues (document (form w)) = [] ->
          calls (step SubmitForm w)
          = calls w
            ++ [Api.RegisterPatient
                  (Api.mkBody (name (form w)) (age (form w))
                              (document (form w)) (phone (form w)))]))
  /\ (forall p : jsstring,
      p <> [] ->
      phone_refinement (Some p) = true
      <-> List.length (replace_non_digits p) = 11).
Proof.
  split; [reflexivity |]. split; [reflexivity |]. split.
  - intros w Hp. pose proof (phone_issues_falsy _ Hp) as Hi. split.
    + destruct (parse_issues (form w)) as [| i l] eqn:Hv.
      * destruct (backend (calls w)
                    (Api.RegisterPatient (body_of (form w))))
          as [e |] eqn:Hb.
        -- now rewrite (submit_failed w e Hv Hb).
        -- now rewrite (submit_answered w Hv Hb).
      * assert (Hne : parse_issues (form w) <> [])
          by (rewrite Hv; discriminate).
        rewrite (submit_invalid w Hne), resolver_errors_parse. simpl.
        now rewrite Hi.
    + intros Hn Ha Hd. apply submit_valid_calls.
      apply parse_issues_nil_iff. auto.
  - intros [| c p] Hne; [contradiction |].
    rewrite phone_refinement_nonempty. apply Nat.eqb_eq.
Qed.

(** C10.  The body of the register call holds the document and the phone
    exactly as they stand in the form.  The validation strips non-digits
    for its own count only: the document that is sent is the stripped one
    only when there was nothing to strip. *)
Theorem register_payload_verbatim (w : world) :
  parse_issues (form w) = [] ->
  exists body : Api.RegisterBody,
    calls (step SubmitForm w) = calls w ++ [Api.RegisterPatient body]
    /\ Api.body_document body = document (form w)
    /\ Api.body_phone body = phone (form w)
    /\ (Api.body_document body = replace_non_digits (document (form w))
        <-> forallb is_digit (document (form w)) = true).
Proof.
  intros Hv. exists (body_of (form w)). split.
  - now apply submit_valid_calls.
  - simpl. repeat split; trivial.
    + intros H. apply filter_fixed_iff. now symmetry.
    + intros H. symmetry. now apply filter_fixed_iff.
Qed.

End Handlers.

(* ===================================================================== *)
(** ** The document cell *)
(* ===================================================================== *)

Section Cells.

Variable cpfMask : jsstring -> jsstring.
Variable rgMask : jsstring -> jsstring.

Local Abbreviation documentCell := (PatientTable.documentCell cpfMask rgMask).

Lemma documentCell_nine (row : Api.PatientProps) :
  List.length (Api.document row) = 9 ->
  documentCell row = lit "RG: " ++ rgMask (Api.document row).
Proof.
  intros H. unfold PatientTable.documentCell. now rewrite H.
Qed.

Lemma documentCell_other (row : Api.PatientProps) :
  List.length (Api.document row) <> 9 ->
  documentCell row = lit "CPF: " ++ cpfMask (Api.document row).
Proof.
  intros H. unfold PatientTable.documentCell.
  destruct (Nat.eqb_spec (List.length (Api.document row)) 9);
    [contradiction | reflexivity].
Qed.

Lemma label_RG_prefix (s : jsstring) :
  startsWith (lit "RG:") (lit "RG: " ++ s) = true.
Proof. reflexivity. Qed.

Lemma label_CPF_prefix (s : jsstring) :
  startsWith (lit "CPF:") (lit "CPF: " ++ s) = true.
Proof. reflexivity. Qed.

Lemma label_CPF_not_RG (s : jsstring) :
  startsWith (lit "RG:") (lit "CPF: " ++ s) = false.
Proof. reflexivity. Qed.

(** C5, amended.  The label starts with "RG:" for every stored document
    whose length is 9, hence for every stored document made of 9 digits and
    nothing else; it starts with "CPF:" for every stored document with 11
    digits, with or without separators. *)
Theorem document_label_by_stored_length (row : Api.PatientProps) :
  (List.length (Api.document row) = 9 ->
   startsWith (lit "RG:") (documentCell row) = true)
  /\ (forallb is_digit (Api.document row) = true ->
      List.length (replace_non_digits (Api.document row)) = 9 ->
      startsWith (lit "RG:") (documentCell row) = true)
  /\ (List.length (replace_non_digits (Api.document row)) = 11 ->
      startsWith (lit "CPF:") (documentCell row) = true).
Proof.
  split; [| split].
  - intros H. rewrite (documentCell_nine row H). apply label_RG_prefix.
  - intros Hd H.
    apply filter_fixed_iff in Hd. unfold replace_non_digits in H.
    rewrite Hd in H.
    rewrite (documentCell_nine row H). apply label_RG_prefix.
  - intros H.
    pose proof (filter_length_le is_digit (Api.document row)) as Hle.
    unfold replace_non_digits in H.
    rewrite documentCell_other by lia. apply label_CPF_prefix.
Qed.

(** C9.  The label is chosen by the length of the stored string itself:
    whenever that length is not 9, whatever the string holds, the label is
    "CPF: " followed by the taxpayer mask of the string. *)
Theorem document_label_raw_length (row : Api.PatientProps) :
  List.length (Api.document row) <> 9 ->
  documentCell row = lit "CPF: " ++ cpfMask (Api.document row)
  /\ startsWith (lit "CPF:") (documentCell row) = true
  /\ startsWith (lit "RG:") (documentCell row) = false.
Proof.
  intros H. rewrite (documentCell_other row H).
  split; [reflexivity |].
  split; [apply label_CPF_prefix | apply label_CPF_not_RG].
Qed.

End Cells.

(* ===================================================================== *)
(** ** The tiles of the home page *)
(* ===================================================================== *)

Import HomePage.

Lemma anamnese_is_no_other_tile :
  ~ In anamnese [agenda; financeiro; pacientes; receituario].
Proof.
  simpl. intros [H | [H | [H | [H | []]]]]; discriminate H.
Qed.

(** C7.  The Anamnese tile is on the page exactly when a user record has
    been fetched and its crm holds a value, that is a non-empty identifier;
    the four other tiles are on the page whatever the user query returned,
    and the page shows the tiles in a fixed order. *)
Theorem anamnesis_tile_iff_crm (user : option Api.User) :
  (In anamnese (Home user)
   <-> exists (u : Api.User) (c : jsstring),
         user = Some u /\ Api.crm u = Some c /\ c <> [])
  /\ In agenda (Home user)
  /\ In financeiro (Home user)
  /\ In pacientes (Home user)
  /\ In receituario (Home user)
  /\ (Home user = [agenda; financeiro; pacientes; anamnese; receituario]
      \/ Home user = [agenda; financeiro; pacientes; receituario]).
Proof.
  destruct user as [[[[| c0 c] |]] |]; unfold Home; simpl user_crm;
    simpl truthy_opt; cbv iota.
  all: split;
    [ | simpl; intuition ].
  all: split.
  all: try (intros H; exfalso; apply anamnese_is_no_other_tile; exact H).
  all: try (intros (u & c' & Hu & Hc & Hne); exfalso;
            try discriminate Hu;
            injection Hu as <-; simpl in Hc;
            try discriminate Hc; injection Hc as <-; now apply Hne).
  - intros _. eexists; eexists; repeat split; discriminate.
  - intros _. simpl. auto.
Qed.

(* ===================================================================== *)
(** ** The theorems at the sample inputs *)
(* ===================================================================== *)

Example document_validator_samples :
  document_refinement (lit "123.456.789-01") = true
  /\ document_refinement (lit "12.345.678-9") = true
  /\ document_refinement (lit "1234567890") = false
  /\ document_refinement (lit "abc") = false.
Proof. repeat split; reflexivity. Qed.

Example age_checks_samples :
  age_issues NaN = [msg_nan]
  /\ age_issues (Num 34%Q) = []
  /\ age_issues (Num (242 # 2)) = [msg_age_max]
  /\ age_issues (Num 120.5%Q) = [msg_age_int; msg_age_max]
  /\ age_issues (Num (-0.5)%Q) = [msg_age_int; msg_age_min].
Proof. repeat split; reflexivity. Qed.

(** The specification's example submission, with a store that answers. *)
Lemma submit_valid_registers_once_witness :
  (name_issues (name Samples.maria) = []
   /\ age_issues (age Samples.maria) = []
   /\ document_issues (document Samples.maria) = []
   /\ phone_issues (phone Samples.maria) = [])
  /\ calls (step nat Samples.describe Samples.backend_up SubmitForm
              (Samples.editing Samples.maria))
     = [Api.RegisterPatient
          (Api.mkBody (lit "Maria Silva") (Num 34%Q) (lit "12345678901")
                      (Some (lit "11987654321")))]
  /\ form (step nat Samples.describe Samples.backend_up SubmitForm
             (Samples.editing Samples.maria)) = blank_form
  /\ isPopoverOpen (step nat Samples.describe Samples.backend_up SubmitForm
                      (Samples.editing Samples.maria)) = false
  /\ invalidated (step nat Samples.describe Samples.backend_up SubmitForm
                    (Samples.editing Samples.maria)) = [[lit "patients"]].
Proof.
  split; [repeat split; reflexivity |].
  destruct (submit_valid_registers_once nat Samples.describe
              Samples.backend_up (Samples.editing Samples.maria)
              eq_refl eq_refl eq_refl eq_refl) as [Hcalls Hok].
  destruct (Hok eq_refl) as (Hform & Hopen & Hinv & _).
  split; [exact Hcalls |].
  split; [exact Hform |].
  split; [exact Hopen | exact Hinv].
Defined.

(** The three failing submissions of the specification. *)
Lemma invalid_submission_blocked_witness :
  (calls (step nat Samples.describe Samples.backend_up SubmitForm
            (Samples.editing Samples.short_name)) = []
   /\ err_name (errors (step nat Samples.describe Samples.backend_up
                          SubmitForm (Samples.editing Samples.short_name)))
      = Some (lit "Digite o nome completo."))
  /\ (calls (step nat Samples.describe Samples.backend_up SubmitForm
               (Samples.editing Samples.too_old)) = []
      /\ err_age (errors (step nat Samples.describe Samples.backend_up
                            SubmitForm (Samples.editing Samples.too_old)))
         = Some (lit "Idade muito alta."))
  /\ (calls (step nat Samples.describe Samples.backend_up SubmitForm
               (Samples.editing Samples.negative_age)) = []
      /\ err_age (errors (step nat Samples.describe Samples.backend_up
                            SubmitForm
                            (Samples.editing Samples.negative_age)))
         = Some (lit "Idade inv" ++ [225%N] ++ lit "lida.")).
Proof.
  split; [| split].
  - apply (proj1 (proj2 (invalid_submission_blocked nat Samples.describe
                           Samples.backend_up
                           (Samples.editing Samples.short_name)))).
    simpl. lia.
  - apply (proj1 (proj2 (proj2
             (invalid_submission_blocked nat Samples.describe
                Samples.backend_up (Samples.editing Samples.too_old))))
             121%Q eq_refl).
    reflexivity.
  - apply (proj2 (proj2 (proj2
             (invalid_submission_blocked nat Samples.describe
                Samples.backend_up
                (Samples.editing Samples.negative_age))))
             (-1)%Q eq_refl).
    reflexivity.
Defined.

(** A registration and a deletion against a store that is down. *)
Lemma remote_failure_keeps_state_witness :
  (toasts (step nat Samples.describe Samples.backend_down SubmitForm
             (Samples.editing Samples.maria))
   = [mkToast destructive (lit "Pacientes")
              (lit "Erro interno do servidor")]
   /\ form (step nat Samples.describe Samples.backend_down SubmitForm
              (Samples.editing Samples.maria)) = Samples.maria
   /\ isPopoverOpen (step nat Samples.describe Samples.backend_down
                       SubmitForm (Samples.editing Samples.maria)) = true
   /\ invalidated (step nat Samples.describe Samples.backend_down
                     SubmitForm (Samples.editing Samples.maria)) = [])
  /\ (toasts (step nat Samples.describe Samples.backend_down
                (ClickConfirmar Samples.patient_cpf)
                (Samples.editing Samples.maria))
      = [mkToast destructive (lit "Pacientes")
                 (lit "Erro interno do servidor")]
      /\ calls (step nat Samples.describe Samples.backend_down
                  (ClickConfirmar Samples.patient_cpf)
                  (Samples.editing Samples.maria))
         = [Api.DeletePatient (lit "p-2")]
      /\ invalidated (step nat Samples.describe Samples.backend_down
                        (ClickConfirmar Samples.patient_cpf)
                        (Samples.editing Samples.maria)) = []).
Proof.
  destruct (remote_failure_keeps_state nat Samples.describe
              Samples.backend_down (Samples.editing Samples.maria)
              Samples.patient_cpf 500) as [Hreg Hdel].
  destruct (Hreg eq_refl eq_refl) as (Ht & _ & Hf & Ho & _ & Hi).
  destruct (Hdel eq_refl) as (Ht' & Hc' & _ & _ & _ & Hi').
  split.
  - split; [exact Ht |]. split; [exact Hf |]. split; [exact Ho | exact Hi].
  - split; [exact Ht' |]. split; [exact Hc' | exact Hi'].
Defined.

(** A submission typed with separators is sent with its separators. *)
Lemma register_payload_verbatim_witness :
  parse_issues (form (Samples.editing Samples.punctuated)) = []
  /\ exists body : Api.RegisterBody,
       calls (step nat Samples.describe Samples.backend_up SubmitForm
                (Samples.editing Samples.punctuated))
       = [Api.RegisterPatient body]
       /\ Api.body_document body = lit "123.456.789"
       /\ Api.body_phone body = Some (lit "(11)98765-4321").
Proof.
  split; [reflexivity |].
  destruct (register_payload_verbatim nat Samples.describe
              Samples.backend_up (Samples.editing Samples.punctuated)
              eq_refl) as (body & Hc & Hd & Hp & _).
  exists body. split; [exact Hc |]. split; [exact Hd | exact Hp].
Defined.

Example punctuated_document_is_not_normalised :
  replace_non_digits (document Samples.punctuated) = lit "123456789"
  /\ document Samples.punctuated <> replace_non_digits
                                      (document Samples.punctuated).
Proof. split; [reflexivity | discriminate]. Qed.

(** C5, as stated, fails on a stored document with 9 digits and a
    separator: the form accepts "12345678-9" as a 9-digit document, yet its
    label starts with "CPF:" and not with "RG:", whatever the masks. *)
Lemma document_label_digit_count_counterexample :
  document_refinement (Api.document Samples.patient_rg_punctuated) = true
  /\ List.length
       (replace_non_digits (Api.document Samples.patient_rg_punctuated)) = 9
  /\ forall cpfMask rgMask : jsstring -> jsstring,
       startsWith (lit "RG:")
         (documentCell cpfMask rgMask Samples.patient_rg_punctuated) = false
       /\ startsWith (lit "CPF:")
            (documentCell cpfMask rgMask Samples.patient_rg_punctuated)
          = true.
Proof.
  split; [reflexivity |]. split; [reflexivity |].
  intros cpfMask rgMask. split; reflexivity.
Qed.

(** Stored documents of 9 digits, 11 digits, and 11 digits with
    separators. *)
Lemma document_label_by_stored_length_witness :
  (List.length (Api.document Samples.patient_rg) = 9
   /\ startsWith (lit "RG:")
        (documentCell Samples.plain_mask Samples.plain_mask
           Samples.patient_rg) = true)
  /\ (List.length (replace_non_digits (Api.document Samples.patient_cpf))
      = 11
      /\ startsWith (lit "CPF:")
           (documentCell Samples.plain_mask Samples.plain_mask
              Samples.patient_cpf) = true).
Proof.
  split.
  - split; [reflexivity |].
    apply (proj1 (document_label_by_stored_length Samples.plain_mask
                    Samples.plain_mask Samples.patient_rg)).
    reflexivity.
  - split; [reflexivity |].
    apply (proj2 (proj2 (document_label_by_stored_length Samples.plain_mask
                           Samples.plain_mask Samples.patient_cpf))).
    reflexivity.
Defined.

(** A stored document of 10 characters, 9 of them digits. *)
Lemma document_label_raw_length_witness :
  List.length (Api.document Samples.patient_rg_punctuated) <> 9
  /\ documentCell Samples.plain_mask Samples.plain_mask
       Samples.patient_rg_punctuated
     = lit "CPF: 123456789".
Proof.
  assert (H : List.length (Api.document Samples.patient_rg_punctuated) <> 9)
    by (simpl; lia).
  split; [exact H |].
  exact (proj1 (document_label_raw_length Samples.plain_mask
                  Samples.plain_mask Samples.patient_rg_punctuated H)).
Defined.

Example home_samples :
  Home (Some Samples.licensed)
  = [agenda; financeiro; pacientes; anamnese; receituario]
  /\ Home (Some Samples.unlicensed)
     = [agenda; financeiro; pacientes; receituario]
  /\ Home (Some Samples.blank_licence)
     = [agenda; financeiro; pacientes; receituario]
  /\ Home None = [agenda; financeiro; pacientes; receituario].
Proof. repeat split; reflexivity. Qed.

(* ===================================================================== *)
(** ** More on the field rules *)
(* ===================================================================== *)

Lemma filter_full_length {A : Type} (p : A -> bool) (l : list A) :
  List.length (filter p l) = List.length l -> forallb p l = true.
Proof.
  induction l as [| a l IH]; simpl; trivial.
  destruct (p a); simpl; intros H.
  - apply IH. lia.
  - pose proof (filter_length_le p l). lia.
Qed.

Lemma replace_non_digits_insert (a b : jsstring) (c : code_unit) :
  is_digit c = false ->
  replace_non_digits (a ++ c :: b) = replace_non_digits (a ++ b).
Proof.
  intros Hc. unfold replace_non_digits.
  rewrite !filter_app. simpl. now rewrite Hc.
Qed.

Lemma replace_non_digits_idempotent (s : jsstring) :
  replace_non_digits (replace_non_digits s) = replace_non_digits s.
Proof.
  unfold replace_non_digits. apply filter_fixed_iff, forallb_filter_same.
Qed.

Lemma document_issues_nil_iff (doc : jsstring) :
  document_issues doc = [] <-> document_refinement doc = true.
Proof.
  unfold document_issues.
  destruct (document_refinement doc); split; intros H;
    try reflexivity; discriminate.
Qed.

Lemma phone_refinement_iff (ph : option jsstring) :
  phone_refinement ph = true
  <-> ph = None \/ ph = Some []
      \/ exists p : jsstring,
           ph = Some p /\ List.length (replace_non_digits p) = 11.
Proof.
  destruct ph as [[| c p] |].
  - split; auto.
  - rewrite phone_refinement_nonempty, Nat.eqb_eq. split.
    + intros H. right. right. now exists (c :: p).
    + intros [H | [H | (p' & H & Hp')]]; try discriminate H.
      now injection H as <-.
  - split; auto.
Qed.

Lemma hd_error_None_iff {A : Type} (l : list A) :
  hd_error l = None <-> l = [].
Proof. destruct l; split; intros H; trivial; discriminate. Qed.

(** X4.  Formatting characters never change a verdict: a non-digit
    inserted anywhere in a document leaves its verdict unchanged, and so
    does stripping the document; the same holds for a phone as long as the
    phone without the character is not empty.  At that edge the verdicts
    part: a phone made of separators only is rejected, though the empty
    phone is accepted. *)
Theorem verdict_ignores_separators :
  (forall (a b : jsstring) (c : code_unit),
      is_digit c = false ->
      document_refinement (a ++ c :: b) = document_refinement (a ++ b))
  /\ (forall d : jsstring,
      document_refinement (replace_non_digits d) = document_refinement d)
  /\ (forall (a b : jsstring) (c : code_unit),
      is_digit c = false -> a ++ b <> [] ->
      phone_refinement (Some (a ++ c :: b))
      = phone_refinement (Some (a ++ b)))
  /\ (forall p : jsstring,
      p <> [] -> replace_non_digits p = [] ->
      phone_refinement (Some p) = false
      /\ phone_refinement (Some []) = true).
Proof.
  split; [| split; [| split]].
  - intros a b c Hc. unfold document_refinement.
    now rewrite (replace_non_digits_insert a b c Hc).
  - intros d. unfold document_refinement.
    now rewrite replace_non_digits_idempotent.
  - intros a b c Hc Hne.
    assert (Hl : exists x l, a ++ c :: b = x :: l)
      by (destruct a; simpl; eauto).
    destruct Hl as (x & l & Hl).
    destruct (a ++ b) as [| y m] eqn:Hab; [contradiction |].
    rewrite Hl, !phone_refinement_nonempty, <- Hl, <- Hab.
    now rewrite (replace_non_digits_insert a b c Hc).
  - intros [| c p] Hne Hd; [contradiction |].
    split; [| reflexivity].
    rewrite phone_refinement_nonempty, Hd. reflexivity.
Qed.

(** X5.  The document and phone inputs take at most 11 characters, which
    leaves no room for a separator beside 11 digits: a non-empty phone that
    fits the input is accepted exactly when it is 11 digits and nothing
    else, and a document that fits is accepted exactly when it is 11 digits
    and nothing else or holds 9 digits (with at most two other
    characters). *)
Theorem capped_inputs_accept_bare_digits (s : jsstring) :
  (s <> [] -> Inputs.fits Inputs.maxLength_phone s = true ->
   (phone_refinement (Some s) = true
    <-> List.length s = 11 /\ forallb is_digit s = true))
  /\ (Inputs.fits Inputs.maxLength_document s = true ->
      (document_refinement s = true
       <-> (List.length s = 11 /\ forallb is_digit s = true)
           \/ (List.length (replace_non_digits s) = 9
               /\ List.length s <= 9 + 2))).
Proof.
  pose proof (filter_length_le is_digit s) as Hle.
  assert (Hfull : List.length s <= 11 ->
                  List.length (replace_non_digits s) = 11 ->
                  List.length s = 11 /\ forallb is_digit s = true).
  { intros Hcap H11. unfold replace_non_digits in H11.
    split; [lia |]. apply filter_full_length. lia. }
  assert (Hback : List.length s = 11 /\ forallb is_digit s = true ->
                  List.length (replace_non_digits s) = 11).
  { intros [Hl Hd]. apply filter_fixed_iff in Hd.
    unfold replace_non_digits. now rewrite Hd. }
  split.
  - intros Hne Hcap. apply Nat.leb_le in Hcap.
    destruct s as [| c p]; [contradiction |].
    rewrite phone_refinement_nonempty, Nat.eqb_eq.
    split; [now apply Hfull | exact Hback].
  - intros Hcap. apply Nat.leb_le in Hcap.
    rewrite document_refinement_iff. split.
    + intros [H11 | H9]; [left; now apply Hfull |].
      right. split; [exact H9 | exact Hcap].
    + intros [H | [H9 _]]; [left; now apply Hback | now right].
Qed.

(** X6.  Validation and display, end to end: when a document that the
    form accepts is stored as it was sent, its label starts with "RG:"
    exactly when it is 9 digits and nothing else, and with "CPF:" in every
    other case, including 9 digits typed with a separator. *)
Theorem accepted_document_label
    (cpfMask rgMask : jsstring -> jsstring) (row : Api.PatientProps) :
  document_refinement (Api.document row) = true ->
  (startsWith (lit "RG:") (documentCell cpfMask rgMask row) = true
   <-> List.length (Api.document row) = 9
       /\ forallb is_digit (Api.document row) = true)
  /\ (startsWith (lit "CPF:") (documentCell cpfMask rgMask row) = true
      <-> List.length (Api.document row) <> 9
          \/ forallb is_digit (Api.document row) = false).
Proof.
  intros Hok. apply document_refinement_iff in Hok.
  pose proof (filter_length_le is_digit (Api.document row)) as Hle.
  unfold replace_non_digits in Hok.
  destruct (Nat.eq_dec (List.length (Api.document row)) 9) as [H9 | H9].
  - assert (Hd : forallb is_digit (Api.document row) = true)
      by (apply filter_full_length; lia).
    rewrite (documentCell_nine cpfMask rgMask row H9). split.
    + split; [auto | intros _; reflexivity].
    + split; [discriminate |].
      intros [H | H]; [contradiction | congruence].
  - rewrite (documentCell_other cpfMask rgMask row H9). split.
    + split; [discriminate | intros [H _]; contradiction].
    + split; [auto | intros _; reflexivity].
Qed.

(* ===================================================================== *)
(** ** Submissions, sessions and what the logs can hold *)
(* ===================================================================== *)

Import Session.

Section Sessions.

Variable exn : Type.
Variable axiosErrorHandler : exn -> jsstring.
Variable backend : list Api.call -> Api.call -> option exn.

Local Abbreviation step := (PatientTable.step exn axiosErrorHandler backend).
Local Abbreviation run := (Session.run exn axiosErrorHandler backend).
Local Abbreviation body_of f :=
  (Api.mkBody (name f) (age f) (document f) (phone f)).

(** After any submission each field holds the first issue of its own
    checks. *)
Lemma submit_errors (w : world) :
  errors (step SubmitForm w)
  = mkErrors (hd_error (name_issues (name (form w))))
             (hd_error (age_issues (age (form w))))
             (hd_error (document_issues (document (form w))))
             (hd_error (phone_issues (phone (form w)))).
Proof.
  destruct (parse_issues (form w)) as [| i l] eqn:Hv.
  - pose proof (proj1 (parse_issues_nil_iff (form w)) Hv)
      as (-> & -> & -> & ->).
    destruct (backend (calls w) (Api.RegisterPatient (body_of (form w))))
      as [e |] eqn:Hb.
    + now rewrite (submit_failed exn axiosErrorHandler backend w e Hv Hb).
    + now rewrite (submit_answered exn axiosErrorHandler backend w Hv Hb).
  - assert (Hne : parse_issues (form w) <> [])
      by (rewrite Hv; discriminate).
    rewrite (submit_invalid exn axiosErrorHandler backend w Hne).
    simpl. apply resolver_errors_parse.
Qed.

Lemma submit_blocked_calls (w : world) :
  parse_issues (form w) <> [] -> calls (step SubmitForm w) = calls w.
Proof.
  intros Hne.
  now rewrite (submit_invalid exn axiosErrorHandler backend w Hne).
Qed.


(** X1.  The schema accepts exactly the submissions with a name of at
    least 3 characters, an age that is a whole number from 0 to 120, a
    document with 11 or 9 digits, and a phone that is absent, empty or has
    11 digits; and a submission changes the log of remote calls exactly
    when the schema accepts it. *)
Theorem submission_reaches_store_iff (w : world) :
  (parse_issues (form w) = []
   <-> 3 <= List.length (name (form w))
       /\ (exists q : Q,
             age (form w) = Num q /\ isInteger q = true
             /\ (0 <= q)%Q /\ (q <= 120)%Q)
       /\ (List.length (replace_non_digits (document (form w))) = 11
           \/ List.length (replace_non_digits (document (form w))) = 9)
       /\ (phone (form w) = None \/ phone (form w) = Some []
           \/ exists p : jsstring,
                phone (form w) = Some p
                /\ List.length (replace_non_digits p) = 11))
  /\ (calls (step SubmitForm w) <> calls w
      <-> parse_issues (form w) = []).
Proof.
  split.
  - rewrite parse_issues_nil_iff, name_issues_nil_iff, age_issues_nil_iff,
      document_issues_nil_iff, document_refinement_iff,
      phone_issues_nil_iff, phone_refinement_iff.
    reflexivity.
  - split.
    + intros Hch.
      destruct (parse_issues (form w)) as [| i l] eqn:Hv; trivial.
      exfalso. apply Hch, submit_blocked_calls.
      rewrite Hv. discriminate.
    + intros Hv Heq.
      rewrite (submit_valid_calls exn axiosErrorHandler backend w Hv)
        in Heq.
      apply (f_equal (@List.length Api.call)) in Heq.
      rewrite length_app in Heq. simpl in Heq. lia.
Qed.

(** X2.  After a submission each field shows an error exactly when its
    own rule fails, whatever the other fields hold: all the failing fields
    are marked at once. *)
Theorem field_errors_independent (w : world) :
  (err_name (errors (step SubmitForm w)) = None
   <-> 3 <= List.length (name (form w)))
  /\ (err_age (errors (step SubmitForm w)) = None
      <-> exists q : Q,
            age (form w) = Num q /\ isInteger q = true
            /\ (0 <= q)%Q /\ (q <= 120)%Q)
  /\ (err_document (errors (step SubmitForm w)) = None
      <-> document_refinement (document (form w)) = true)
  /\ (err_phone (errors (step SubmitForm w)) = None
      <-> phone_refinement (phone (form w)) = true).
Proof.
  rewrite submit_errors. simpl.
  rewrite !hd_error_None_iff.
  split; [apply name_issues_nil_iff |].
  split; [apply age_issues_nil_iff |].
  split; [apply document_issues_nil_iff | apply phone_issues_nil_iff].
Qed.


(** *** What one event does to the logs *)

(** An event either leaves the three logs alone, or sends one call that
    ends in one toast, with one invalidation when the toast is the success
    one.  The rows are never touched. *)
Lemma step_effect (e : event) (w : world) :
  data (step e w) = data w
  /\ ((calls (step e w) = calls w
       /\ toasts (step e w) = toasts w
       /\ invalidated (step e w) = invalidated w)
      \/ exists (c : Api.call) (t : Toast),
           calls (step e w) = calls w ++ [c]
           /\ toasts (step e w) = toasts w ++ [t]
           /\ invalidated (step e w)
              = invalidated w
                ++ (if is_default t then [[lit "patients"]] else [])
           /\ passes_schema c = true
           /\ match c with
              | Api.RegisterPatient b =>
                  e = SubmitForm /\ b = body_of (form w)
              | Api.DeletePatient i =>
                  exists p : Api.PatientProps,
                    e = ClickConfirmar p /\ Api.id p = i
              end).
Proof.
  destruct e as [| b | s | n | s | s | | p | p | p];
    try (split; [reflexivity | left; repeat split; reflexivity]).
  - destruct (parse_issues (form w)) as [| i l] eqn:Hv.
    + assert (Hpass : passes_schema
                        (Api.RegisterPatient (body_of (form w))) = true).
      { unfold passes_schema.
        change (parse_issues (form_of_body (body_of (form w))))
          with (parse_issues (form w)).
        now rewrite Hv. }
      destruct (backend (calls w) (Api.RegisterPatient (body_of (form w))))
        as [x |] eqn:Hb.
      * rewrite (submit_failed exn axiosErrorHandler backend w x Hv Hb).
        split; [reflexivity | right].
        eexists; eexists. simpl.
        repeat split; try reflexivity; try exact Hpass.
        now rewrite app_nil_r.
      * rewrite (submit_answered exn axiosErrorHandler backend w Hv Hb).
        split; [reflexivity | right].
        eexists; eexists. simpl.
        repeat split; try reflexivity; exact Hpass.
    + assert (Hne : parse_issues (form w) <> [])
        by (rewrite Hv; discriminate).
      rewrite (submit_invalid exn axiosErrorHandler backend w Hne).
      split; [reflexivity | left; repeat split; reflexivity].
  - destruct (backend (calls w) (Api.DeletePatient (Api.id p)))
      as [x |] eqn:Hb.
    + rewrite (confirm_failed exn axiosErrorHandler backend p w x Hb).
      split; [reflexivity | right].
      eexists; eexists. simpl.
      repeat split; try reflexivity.
      * now rewrite app_nil_r.
      * exists p. split; reflexivity.
    + rewrite (confirm_answered exn axiosErrorHandler backend p w Hb).
      split; [reflexivity | right].
      eexists; eexists. simpl.
      repeat split; try reflexivity.
      exists p. split; reflexivity.
Qed.

Lemma count_default_app (l1 l2 : list Toast) :
  count_default (l1 ++ l2) = count_default l1 + count_default l2.
Proof.
  unfold count_default. now rewrite filter_app, length_app.
Qed.

Lemma count_default_one (t : Toast) :
  (if is_default t then [[lit "patients"]] else [])
  = repeat [lit "patients"] (count_default [t]).
Proof.
  unfold count_default. simpl. now destruct (is_default t).
Qed.

(** X7.  Over a whole session the store only ever receives what the user
    asked for: every registration that was sent has a body without issue
    under the schema and comes from a submission, every deletion carries
    the id of a row whose dialog was confirmed, and there are no more
    calls than events. *)
Theorem session_sends_only_what_was_asked (es : list event) (w : world) :
  exists added : list Api.call,
    calls (run es w) = calls w ++ added
    /\ forallb passes_schema added = true
    /\ List.length added <= List.length es
    /\ (forall b : Api.RegisterBody,
          In (Api.RegisterPatient b) added -> In SubmitForm es)
    /\ (forall i : jsstring,
          In (Api.DeletePatient i) added ->
          exists p : Api.PatientProps,
            In (ClickConfirmar p) es /\ Api.id p = i).
Proof.
  revert w. induction es as [| e es IH]; intros w.
  - exists []. simpl. rewrite app_nil_r.
    repeat split; trivial; intros ? [].
  - simpl Session.run.
    destruct (IH (step e w)) as (added & Hc & Hp & Hl & Hr & Hd).
    destruct (step_effect e w) as [_ [(Hsame & _ & _) | Hsent]].
    + exists added. rewrite Hc, Hsame.
      split; [reflexivity |]. split; [exact Hp |].
      split; [simpl; lia |]. split.
      * intros b Hb. right. now apply (Hr b).
      * intros i Hi. destruct (Hd i Hi) as (p & Hin & Hid).
        exists p. split; [now right | exact Hid].
    + destruct Hsent as (c & t & Hc1 & _ & _ & Hpass & Horigin).
      exists (c :: added). rewrite Hc, Hc1, <- app_assoc.
      split; [reflexivity |].
      split; [simpl; now rewrite Hpass, Hp |].
      split; [simpl; lia |]. split.
      * intros b [Hb | Hb].
        -- subst c. destruct Horigin as [-> _]. now left.
        -- right. now apply (Hr b).
      * intros i [Hi | Hi].
        -- subst c. destruct Horigin as (p & -> & Hid).
           exists p. split; [now left | exact Hid].
        -- destruct (Hd i Hi) as (p & Hin & Hid).
           exists p. split; [now right | exact Hid].
Qed.

(** X8.  Over a whole session every call to the store ends in exactly one
    toast, and the cache is invalidated once for each success toast and
    never otherwise; the only key ever invalidated is "patients". *)
Theorem session_toasts_and_invalidations (es : list event) (w : world) :
  exists (sent : list Api.call) (shown : list Toast),
    calls (run es w) = calls w ++ sent
    /\ toasts (run es w) = toasts w ++ shown
    /\ List.length shown = List.length sent
    /\ invalidated (run es w)
       = invalidated w ++ repeat [lit "patients"] (count_default shown).
Proof.
  revert w. induction es as [| e es IH]; intros w.
  - exists [], []. simpl. now rewrite !app_nil_r.
  - simpl Session.run.
    destruct (IH (step e w)) as (sent & shown & Hc & Ht & Hl & Hi).
    destruct (step_effect e w) as [_ [(Hc0 & Ht0 & Hi0) | Hsent]].
    + exists sent, shown. now rewrite Hc, Ht, Hi, Hc0, Ht0, Hi0.
    + destruct Hsent as (c & t & Hc1 & Ht1 & Hi1 & _).
      exists (c :: sent), (t :: shown).
      rewrite Hc, Ht, Hi, Hc1, Ht1, Hi1, <- !app_assoc.
      split; [reflexivity |]. split; [reflexivity |].
      split; [simpl; lia |].
      f_equal.
      change (t :: shown) with ([t] ++ shown).
      now rewrite count_default_app, repeat_app, count_default_one.
Qed.

(** X9.  No sequence of events changes the rows the table was given: a
    registered or deleted patient shows up only when the parent hands the
    table a new list. *)
Theorem session_keeps_rows (es : list event) (w : world) :
  data (run es w) = data w.
Proof.
  revert w. induction es as [| e es IH]; intros w; [reflexivity |].
  simpl Session.run. rewrite IH. apply step_effect.
Qed.

(** *** Submitting more than once *)

(** X10.  The values of a registered patient are not carried over: after a
    successful submission the form is blank, and opening the popover and
    submitting again, with nothing typed, sends no second call. *)
Theorem registered_values_are_not_resent (w : world) :
  parse_issues (form w) = [] ->
  backend (calls w)
    (Api.RegisterPatient
       (Api.mkBody (name (form w)) (age (form w)) (document (form w))
                   (phone (form w)))) = None ->
  calls (run [SubmitForm; ClickCadastrarNovo; SubmitForm] w)
  = calls w
    ++ [Api.RegisterPatient
          (Api.mkBody (name (form w)) (age (form w)) (document (form w))
                      (phone (form w)))]
  /\ form (run [SubmitForm; ClickCadastrarNovo; SubmitForm] w) = blank_form
  /\ toasts (run [SubmitForm; ClickCadastrarNovo; SubmitForm] w)
     = toasts (step SubmitForm w)
  /\ invalidated (run [SubmitForm; ClickCadastrarNovo; SubmitForm] w)
     = invalidated w ++ [[lit "patients"]].
Proof.
  intros Hv Hb. simpl Session.run.
  rewrite (submit_answered exn axiosErrorHandler backend w Hv Hb).
  rewrite (submit_invalid exn axiosErrorHandler backend);
    [| simpl; discriminate].
  simpl. repeat split; reflexivity.
Qed.

(** X11.  A failed registration can be repeated by hand: the form kept
    its values, so a second submission sends the same body again, and when
    the store then answers the usual success follows, with one failure
    toast and one success toast shown in that order. *)
Theorem failed_registration_can_be_resubmitted (w : world) (e : exn) :
  parse_issues (form w) = [] ->
  backend (calls w)
    (Api.RegisterPatient
       (Api.mkBody (name (form w)) (age (form w)) (document (form w))
                   (phone (form w)))) = Some e ->
  calls (run [SubmitForm; SubmitForm] w)
  = calls w
    ++ [Api.RegisterPatient
          (Api.mkBody (name (form w)) (age (form w)) (document (form w))
                      (phone (form w)));
        Api.RegisterPatient
          (Api.mkBody (name (form w)) (age (form w)) (document (form w))
                      (phone (form w)))]
  /\ (backend
        (calls w
         ++ [Api.RegisterPatient
               (Api.mkBody (name (form w)) (age (form w))
                           (document (form w)) (phone (form w)))])
        (Api.RegisterPatient
           (Api.mkBody (name (form w)) (age (form w)) (document (form w))
                       (phone (form w)))) = None ->
      toasts (run [SubmitForm; SubmitForm] w)
      = toasts w
        ++ [mkToast destructive (lit "Pacientes") (axiosErrorHandler e);
            mkToast default (lit "Pacientes") (lit "Paciente cadastrado!")]
      /\ invalidated (run [SubmitForm; SubmitForm] w)
         = invalidated w ++ [[lit "patients"]]
      /\ form (run [SubmitForm; SubmitForm] w) = blank_form
      /\ isPopoverOpen (run [SubmitForm; SubmitForm] w) = false).
Proof.
  intros Hv Hb. simpl Session.run.
  rewrite (submit_failed exn axiosErrorHandler backend w e Hv Hb).
  split.
  - rewrite (submit_valid_calls exn axiosErrorHandler backend);
      [| exact Hv].
    simpl. now rewrite <- app_assoc.
  - intros Hb2.
    rewrite (submit_answered exn axiosErrorHandler backend);
      [| exact Hv | exact Hb2].
    simpl. rewrite <- app_assoc. repeat split; reflexivity.
Qed.


(** X13.  A deletion never touches the form, its errors or the popover,
    whether the store answers or fails; when the store answers, the one
    toast shown is "Paciente excluido" (i-acute). *)
Theorem deletion_leaves_form_alone (p : Api.PatientProps) (w : world) :
  form (step (ClickConfirmar p) w) = form w
  /\ errors (step (ClickConfirmar p) w) = errors w
  /\ isPopoverOpen (step (ClickConfirmar p) w) = isPopoverOpen w
  /\ (backend (calls w) (Api.DeletePatient (Api.id p)) = None ->
      toasts (step (ClickConfirmar p) w)
      = toasts w
        ++ [mkToast default (lit "Pacientes")
                    (lit "Paciente exclu" ++ [237%N] ++ lit "do")]).
Proof.
  destruct (backend (calls w) (Api.DeletePatient (Api.id p)))
    as [x |] eqn:Hb.
  - rewrite (confirm_failed exn axiosErrorHandler backend p w x Hb).
    simpl. repeat split; trivial. discriminate.
  - rewrite (confirm_answered exn axiosErrorHandler backend p w Hb).
    simpl. repeat split; reflexivity.
Qed.

(** X15.  What is typed is what is sent: after the four inputs have been
    filled, a submission that the schema accepts sends exactly the typed
    values, whatever the form held before. *)
Theorem typed_values_are_sent
    (w : world) (n d p : jsstring) (a : jsnumber) :
  parse_issues (mkForm n a d (Some p)) = [] ->
  calls (run [InputName n; InputAge a; InputDocument d; InputPhone p;
              SubmitForm] w)
  = calls w ++ [Api.RegisterPatient (Api.mkBody n a d (Some p))].
Proof.
  intros Hv. simpl Session.run.
  rewrite (submit_valid_calls exn axiosErrorHandler backend);
    [reflexivity | exact Hv].
Qed.

End Sessions.

(* ===================================================================== *)
(** ** The history route *)
(* ===================================================================== *)


(* ===================================================================== *)
(** ** The further theorems at sample inputs *)
(* ===================================================================== *)


(** A phone of 11 digits fits the input and is accepted; the same digits
    with a separator would not fit. *)
Lemma capped_inputs_accept_bare_digits_witness :
  Inputs.fits Inputs.maxLength_phone (lit "11987654321") = true
  /\ Inputs.fits Inputs.maxLength_phone (lit "11 987654321") = false
  /\ (phone_refinement (Some (lit "11987654321")) = true
      <-> List.length (lit "11987654321") = 11
          /\ forallb is_digit (lit "11987654321") = true).
Proof.
  split; [reflexivity |]. split; [reflexivity |].
  apply (proj1 (capped_inputs_accept_bare_digits (lit "11987654321")));
    [discriminate | reflexivity].
Defined.

(** The accepted document "12345678-9", stored as sent, is labelled CPF. *)
Lemma accepted_document_label_witness :
  document_refinement (Api.document Samples.patient_rg_punctuated) = true
  /\ startsWith (lit "CPF:")
       (documentCell Samples.plain_mask Samples.plain_mask
          Samples.patient_rg_punctuated) = true.
Proof.
  split; [reflexivity |].
  apply (proj2 (accepted_document_label Samples.plain_mask
                  Samples.plain_mask Samples.patient_rg_punctuated
                  eq_refl)).
  left. simpl. lia.
Defined.

(** Maria Silva is registered once, however often the blank form is
    submitted afterwards. *)
Lemma registered_values_are_not_resent_witness :
  parse_issues (form (Samples.editing Samples.maria)) = []
  /\ List.length
       (calls (Session.run nat Samples.describe Samples.backend_up
                 [SubmitForm; ClickCadastrarNovo; SubmitForm]
                 (Samples.editing Samples.maria))) = 1.
Proof.
  split; [reflexivity |].
  rewrite (proj1 (registered_values_are_not_resent nat Samples.describe
                    Samples.backend_up (Samples.editing Samples.maria)
                    eq_refl eq_refl)).
  reflexivity.
Defined.

(** A store that fails once: the second submission goes through. *)
Lemma failed_registration_can_be_resubmitted_witness :
  Scenarios.backend_flaky [] (Api.RegisterPatient
                                (Api.mkBody (lit "Maria Silva") (Num 34%Q)
                                            (lit "12345678901")
                                            (Some (lit "11987654321"))))
  = Some 500
  /\ List.length
       (calls (Session.run nat Samples.describe Scenarios.backend_flaky
                 [SubmitForm; SubmitForm]
                 (Samples.editing Samples.maria))) = 2
  /\ form (Session.run nat Samples.describe Scenarios.backend_flaky
             [SubmitForm; SubmitForm] (Samples.editing Samples.maria))
     = blank_form.
Proof.
  split; [reflexivity |].
  destruct (failed_registration_can_be_resubmitted nat Samples.describe
              Scenarios.backend_flaky (Samples.editing Samples.maria) 500
              eq_refl eq_refl) as [Hcalls Hrest].
  split.
  - rewrite Hcalls. reflexivity.
  - exact (proj1 (proj2 (proj2 (Hrest eq_refl)))).
Defined.


(** Maria Silva typed over a form that held another, invalid entry. *)
Lemma typed_values_are_sent_witness :
  calls (Session.run nat Samples.describe Samples.backend_up
           [InputName (lit "Maria Silva"); InputAge (Num 34%Q);
            InputDocument (lit "12345678901");
            InputPhone (lit "11987654321"); SubmitForm]
           (Samples.editing Samples.short_name))
  = [Api.RegisterPatient
       (Api.mkBody (lit "Maria Silva") (Num 34%Q) (lit "12345678901")
                   (Some (lit "11987654321")))].
Proof.
  exact (typed_values_are_sent nat Samples.describe Samples.backend_up
           (Samples.editing Samples.short_name)
           (lit "Maria Silva") (lit "12345678901") (lit "11987654321")
           (Num 34%Q) eq_refl).
Defined.

Example session_sample :
  calls (Session.run nat Samples.describe Samples.backend_up
           Scenarios.session (Samples.editing Samples.short_name))
  = [Api.DeletePatient (lit "p-2")]
  /\ invalidated (Session.run nat Samples.describe Samples.backend_up
                    Scenarios.session (Samples.editing Samples.short_name))
     = [[lit "patients"]]
  /\ isPopoverOpen (Session.run nat Samples.describe Samples.backend_up
                      Scenarios.session
                      (Samples.editing Samples.short_name)) = false.
Proof. repeat split; reflexivity. Qed.
